(** * Course page (src/pages/Course.tsx): wizard and curriculum tracker

    A shallow embedding of the React component [Course]: its ten [useState]
    cells become one record, every handler of the component becomes a
    computation in a small state/exception/trace monad, and the calls to the
    outside world ([toast], the supabase query, [console.error]) become
    events of the trace. *)

From Stdlib Require Import List ZArith NArith String Ascii Bool Lia.
Import ListNotations.

(** ** JavaScript strings

    A JavaScript string is a sequence of UTF-16 code units. *)

Definition jsstring := list N.

Definition lit (s : string) : jsstring :=
  map N_of_ascii (list_ascii_of_string s).

(** [a === b] on strings: same code units, in the same order. *)
Fixpoint strict_eq (a b : jsstring) : bool :=
  match a, b with
  | [], [] => true
  | x :: a', y :: b' => N.eqb x y && strict_eq a' b'
  | _, _ => false
  end.

(** A string is truthy when it is not the empty string. *)
Definition truthy (s : jsstring) : bool :=
  match s with
  | [] => false
  | _ :: _ => true
  end.

(** WhiteSpace and LineTerminator code points of ECMAScript, the ones
    [String.prototype.trim] strips.  All of them are single code units. *)
Definition isWhiteSpace (c : N) : bool :=
  ((9 <=? c) && (c <=? 13) ||
   (c =? 32) || (c =? 160) || (c =? 0x1680) ||
   (0x2000 <=? c) && (c <=? 0x200A) ||
   (c =? 0x2028) || (c =? 0x2029) || (c =? 0x202F) ||
   (c =? 0x205F) || (c =? 0x3000) || (c =? 0xFEFF))%N.

Fixpoint trimStart (s : jsstring) : jsstring :=
  match s with
  | [] => []
  | c :: s' => if isWhiteSpace c then trimStart s' else s
  end.

Definition trimEnd (s : jsstring) : jsstring := rev (trimStart (rev s)).

Definition trim (s : jsstring) : jsstring := trimEnd (trimStart s).

(** [toLowerCase] restricted to the Basic Latin block; the page's handlers
    below are parametrised by the lower-casing function, this is the instance
    used to run them on ASCII input. *)
Definition asciiLower (s : jsstring) : jsstring :=
  map (fun c => if ((65 <=? c) && (c <=? 90))%N then (c + 32)%N else c) s.

(** ** Data model *)

Record CourseType := {
  course_id : jsstring;
  course_title : jsstring;
  course_description : jsstring;
  difficulty_level : jsstring;
  is_free : bool;
  video_id : option jsstring;
  thumbnail_url : option jsstring
}.

Record PythonSection := {
  id : Z;
  title : string;
  description : string;
  isCompleted : bool
}.

Definition pythonSections : list PythonSection :=
  [ {| id := 1;
       title := "Introduction to Python";
       description := "Learn the basics of Python programming language and its ecosystem.";
       isCompleted := false |};
    {| id := 2;
       title := "Basics of Python";
       description := "Master fundamental concepts like variables, data types, and control structures.";
       isCompleted := false |};
    {| id := 3;
       title := "OOP Concepts in Python";
       description := "Understand object-oriented programming principles in Python.";
       isCompleted := false |};
    {| id := 4;
       title := "Advanced Concepts in Python";
       description := "Explore advanced topics like decorators, generators, and metaclasses.";
       isCompleted := false |} ]%Z.

(** The [useState] cells of the component, in declaration order. *)
Record State := {
  searchTopic : jsstring;
  showTypeDialog : bool;
  showDifficultyDialog : bool;
  selectedType : option bool;          (* boolean | null *)
  selectedDifficulty : jsstring;
  courses : list CourseType;
  selectedVideo : jsstring;
  showQuiz : bool;
  showPythonModal : bool;
  sections : list PythonSection
}.

Definition initialState : State := {|
  searchTopic := [];
  showTypeDialog := false;
  showDifficultyDialog := false;
  selectedType := None;
  selectedDifficulty := [];
  courses := [];
  selectedVideo := [];
  showQuiz := false;
  showPythonModal := false;
  sections := pythonSections
|}.

(** ** The outside world *)

Inductive Variant := Default | Destructive.

Record Toast := {
  toast_title : string;
  toast_description : string;
  toast_variant : option Variant
}.

(** The query built on the supabase client:
    [from(t).select(c).eq('is_free', a).eq('difficulty_level', b)
     .order(o, { ascending })]. *)
Record Query := {
  q_from : string;
  q_select : string;
  q_eq_is_free : option bool;
  q_eq_difficulty_level : jsstring;
  q_order : string;
  q_ascending : bool
}.

Inductive JsError := MkError (message : string).

(** What the awaited query gives back: the promise resolves to
    [{ data, error }] (either may be null) or rejects. *)
Inductive Response :=
| Resolved (data : option (list CourseType)) (error : option JsError)
| Rejected (e : JsError).

Inductive Event :=
| EToast (t : Toast)
| EQuery (q : Query)
| EConsoleError (msg : string) (e : JsError).

Definition toasts (tr : list Event) : list Toast :=
  flat_map (fun e => match e with EToast t => [t] | _ => [] end) tr.

Definition queries (tr : list Event) : list Query :=
  flat_map (fun e => match e with EQuery q => [q] | _ => [] end) tr.

(** ** The handler monad: state, exceptions and a trace of events *)

Record Outcome (A : Type) := {
  result : JsError + A;
  state : State;
  trace : list Event
}.

Arguments result {A} _.
Arguments state {A} _.
Arguments trace {A} _.

Definition M (A : Type) : Type := State -> Outcome A.

Definition ret {A} (a : A) : M A :=
  fun s => {| result := inr a; state := s; trace := [] |}.

Definition bind {A B} (m : M A) (k : A -> M B) : M B :=
  fun s =>
    let o := m s in
    match result o with
    | inl e => {| result := inl e; state := state o; trace := trace o |}
    | inr a =>
        let o' := k a (state o) in
        {| result := result o'; state := state o'; trace := trace o ++ trace o' |}
    end.

Definition throw {A} (e : JsError) : M A :=
  fun s => {| result := inl e; state := s; trace := [] |}.

Definition tryCatch {A} (body : M A) (handler : JsError -> M A) : M A :=
  fun s =>
    let o := body s in
    match result o with
    | inl e =>
        let o' := handler e (state o) in
        {| result := result o'; state := state o'; trace := trace o ++ trace o' |}
    | inr a => o
    end.

Definition emit (e : Event) : M unit :=
  fun s => {| result := inr tt; state := s; trace := [e] |}.

Definition modify (f : State -> State) : M unit :=
  fun s => {| result := inr tt; state := f s; trace := [] |}.

Declare Scope handler_scope.
Delimit Scope handler_scope with handler.
Notation "x <- m ;; k" := (bind m (fun x => k))
  (at level 61, m at next level, right associativity) : handler_scope.
Notation "m ;; k" := (bind m (fun _ => k))
  (at level 61, right associativity) : handler_scope.
Open Scope handler_scope.

Definition toast (t : Toast) : M unit := emit (EToast t).
Definition console_error (msg : string) (e : JsError) : M unit :=
  emit (EConsoleError msg e).

(** *** State setters *)

Definition setSearchTopic (v : jsstring) : M unit :=
  modify (fun s =>
    {| searchTopic := v;
       showTypeDialog := showTypeDialog s;
       showDifficultyDialog := showDifficultyDialog s;
       selectedType := selectedType s;
       selectedDifficulty := selectedDifficulty s;
       courses := courses s;
       selectedVideo := selectedVideo s;
       showQuiz := showQuiz s;
       showPythonModal := showPythonModal s;
       sections := sections s |}).

Definition setShowTypeDialog (v : bool) : M unit :=
  modify (fun s =>
    {| searchTopic := searchTopic s;
       showTypeDialog := v;
       showDifficultyDialog := showDifficultyDialog s;
       selectedType := selectedType s;
       selectedDifficulty := selectedDifficulty s;
       courses := courses s;
       selectedVideo := selectedVideo s;
       showQuiz := showQuiz s;
       showPythonModal := showPythonModal s;
       sections := sections s |}).

Definition setShowDifficultyDialog (v : bool) : M unit :=
  modify (fun s =>
    {| searchTopic := searchTopic s;
       showTypeDialog := showTypeDialog s;
       showDifficultyDialog := v;
       selectedType := selectedType s;
       selectedDifficulty := selectedDifficulty s;
       courses := courses s;
       selectedVideo := selectedVideo s;
       showQuiz := showQuiz s;
       showPythonModal := showPythonModal s;
       sections := sections s |}).

Definition setSelectedType (v : option bool) : M unit :=
  modify (fun s =>
    {| searchTopic := searchTopic s;
       showTypeDialog := showTypeDialog s;
       showDifficultyDialog := showDifficultyDialog s;
       selectedType := v;
       selectedDifficulty := selectedDifficulty s;
       courses := courses s;
       selectedVideo := selectedVideo s;
       showQuiz := showQuiz s;
       showPythonModal := showPythonModal s;
       sections := sections s |}).

Definition setSelectedDifficulty (v : jsstring) : M unit :=
  modify (fun s =>
    {| searchTopic := searchTopic s;
       showTypeDialog := showTypeDialog s;
       showDifficultyDialog := showDifficultyDialog s;
       selectedType := selectedType s;
       selectedDifficulty := v;
       courses := courses s;
       selectedVideo := selectedVideo s;
       showQuiz := showQuiz s;
       showPythonModal := showPythonModal s;
       sections := sections s |}).

Definition setCourses (v : list CourseType) : M unit :=
  modify (fun s =>
    {| searchTopic := searchTopic s;
       showTypeDialog := showTypeDialog s;
       showDifficultyDialog := showDifficultyDialog s;
       selectedType := selectedType s;
       selectedDifficulty := selectedDifficulty s;
       courses := v;
       selectedVideo := selectedVideo s;
       showQuiz := showQuiz s;
       showPythonModal := showPythonModal s;
       sections := sections s |}).

Definition setSelectedVideo (v : jsstring) : M unit :=
  modify (fun s =>
    {| searchTopic := searchTopic s;
       showTypeDialog := showTypeDialog s;
       showDifficultyDialog := showDifficultyDialog s;
       selectedType := selectedType s;
       selectedDifficulty := selectedDifficulty s;
       courses := courses s;
       selectedVideo := v;
       showQuiz := showQuiz s;
       showPythonModal := showPythonModal s;
       sections := sections s |}).

Definition setShowQuiz (v : bool) : M unit :=
  modify (fun s =>
    {| searchTopic := searchTopic s;
       showTypeDialog := showTypeDialog s;
       showDifficultyDialog := showDifficultyDialog s;
       selectedType := selectedType s;
       selectedDifficulty := selectedDifficulty s;
       courses := courses s;
       selectedVideo := selectedVideo s;
       showQuiz := v;
       showPythonModal := showPythonModal s;
       sections := sections s |}).

Definition setShowPythonModal (v : bool) : M unit :=
  modify (fun s =>
    {| searchTopic := searchTopic s;
       showTypeDialog := showTypeDialog s;
       showDifficultyDialog := showDifficultyDialog s;
       selectedType := selectedType s;
       selectedDifficulty := selectedDifficulty s;
       courses := courses s;
       selectedVideo := selectedVideo s;
       showQuiz := showQuiz s;
       showPythonModal := v;
       sections := sections s |}).

(** [setSections] is only ever called with an updater function. *)
Definition setSections (f : list PythonSection -> list PythonSection) : M unit :=
  modify (fun s =>
    {| searchTopic := searchTopic s;
       showTypeDialog := showTypeDialog s;
       showDifficultyDialog := showDifficultyDialog s;
       selectedType := selectedType s;
       selectedDifficulty := selectedDifficulty s;
       courses := courses s;
       selectedVideo := selectedVideo s;
       showQuiz := showQuiz s;
       showPythonModal := showPythonModal s;
       sections := f (sections s) |}).

(** ** The handlers of the component

    A handler is a closure created by a render: what it reads ([searchTopic],
    [selectedType], [selectedVideo]) are the values of the render [c] it
    belongs to, what it writes goes through the setters to the live state. *)

Definition errorEmptyTopic : Toast :=
  {| toast_title := "Error";
     toast_description := "Please enter a topic to search";
     toast_variant := Some Destructive |}.

Definition noCoursesFound : Toast :=
  {| toast_title := "No courses found";
     toast_description := "Try different search criteria";
     toast_variant := Some Destructive |}.

Definition fetchFailed : Toast :=
  {| toast_title := "Error";
     toast_description := "Failed to fetch courses";
     toast_variant := Some Destructive |}.

Definition quizCompleted : Toast :=
  {| toast_title := "Quiz Completed";
     toast_description := "You've completed this section's quiz!";
     toast_variant := None |}.

Definition handleSearch (c : State) : M unit :=
  if negb (truthy (trim (searchTopic c))) then
    toast errorEmptyTopic
  else
    setShowTypeDialog true.

Definition handleTypeSelection (isFree : bool) : M unit :=
  setSelectedType (Some isFree) ;;
  setShowTypeDialog false ;;
  setShowDifficultyDialog true.

(** An [async] handler with one [await]: it either runs to its end, or
    stops at the [await] with the request it sent and the rest of its body,
    which runs when the response arrives. *)
Inductive Async :=
| Finished
| Awaiting (q : Query) (k : Response -> M unit).

(** [!data?.length] *)
Definition noLength (data : option (list CourseType)) : bool :=
  match data with
  | None => true
  | Some [] => true
  | Some (_ :: _) => false
  end.

(** The body of [handleDifficultySelection] after the [await], with the
    [try]/[catch] that encloses it. *)
Definition afterQuery (r : Response) : M unit :=
  tryCatch
    (match r with
     | Rejected e => throw e
     | Resolved data error =>
         match error with
         | Some e => throw e
         | None => ret tt
         end ;;
         setCourses (match data with Some d => d | None => [] end) ;;
         if noLength data then toast noCoursesFound else ret tt
     end)
    (fun error =>
       console_error "Error fetching courses:" error ;;
       toast fetchFailed).

Definition handleVideoComplete : M unit :=
  setShowQuiz true ;;
  setSelectedVideo [].

Definition completeIn (sectionId : Z) (prevSections : list PythonSection)
  : list PythonSection :=
  map (fun section =>
         if (id section =? sectionId)%Z then
           {| id := id section;
              title := title section;
              description := description section;
              isCompleted := true |}
         else section)
      prevSections.

Definition handleSectionComplete (sectionId : Z) : M unit :=
  setSections (completeIn sectionId) ;;
  toast quizCompleted.

(** The inline handlers of the JSX. *)
Definition onVideoClose : M unit := setSelectedVideo [].
Definition onQuizClose : M unit := setShowQuiz false.
Definition onQuizRetry (c : State) : M unit := setSelectedVideo (selectedVideo c).

(** [isOpen={!!selectedVideo}] *)
Definition videoIsOpen (s : State) : bool := truthy (selectedVideo s).

Section Handlers.

(** [String.prototype.toLowerCase]. *)
Variable toLowerCase : jsstring -> jsstring.

Definition diverts (c : State) (difficulty : jsstring) : bool :=
  strict_eq (toLowerCase (searchTopic c)) (lit "python")
  && strict_eq difficulty (lit "Beginner").

Definition coursesQuery (c : State) (difficulty : jsstring) : Query :=
  {| q_from := "courses";
     q_select := "*";
     q_eq_is_free := selectedType c;
     q_eq_difficulty_level := toLowerCase difficulty;
     q_order := "created_at";
     q_ascending := false |}.

Definition handleDifficultySelection (c : State) (difficulty : jsstring)
  : M Async :=
  if diverts c difficulty then
    setShowPythonModal true ;;
    ret Finished
  else
    setSelectedDifficulty difficulty ;;
    setShowDifficultyDialog false ;;
    emit (EQuery (coursesQuery c difficulty)) ;;
    ret (Awaiting (coursesQuery c difficulty) afterQuery).

(** The handler run without anything else happening while it waits: the
    response [r] is what the query, if one is sent, gives back. *)
Definition settle (r : Response) (a : Async) : M unit :=
  match a with
  | Finished => ret tt
  | Awaiting _ k => k r
  end.

Definition chooseDifficulty (c : State) (difficulty : jsstring) (r : Response)
  : M unit :=
  a <- handleDifficultySelection c difficulty ;;
  settle r a.

(** *** The page as a transition system

    Everything the user or the query service can make happen.  Between two
    events the component has re-rendered, so a handler's closure holds the
    state it is fired in; a query that was sent stays pending until its
    response arrives, and other events may come first. *)

Record Page := {
  current : State;
  pending : list (Response -> M unit)
}.

Definition initialPage : Page := {| current := initialState; pending := [] |}.

Inductive Action :=
| ChangeTopic (value : jsstring)            (* Input onChange *)
| ClickSearch                               (* Button onClick={handleSearch} *)
| ClickType (isFree : bool)
| ClickDifficulty (level : jsstring)
| ClickSection (sectionId : Z)
| SelectVideo (videoId : jsstring)          (* CourseCard onVideoSelect *)
| CloseVideo
| CompleteVideo
| CloseQuiz
| RetryQuiz
| TypeDialogOpenChange (open : bool)
| DifficultyDialogOpenChange (open : bool)
| PythonModalOpenChange (open : bool)
| QueryResponse (n : nat) (r : Response).   (* n-th pending query settles *)

Definition fire (h : M unit) (p : Page) : Page * list Event :=
  let o := h (current p) in
  ({| current := state o; pending := pending p |}, trace o).

Fixpoint remove_nth {A} (n : nat) (l : list A) : list A :=
  match n, l with
  | _, [] => []
  | O, _ :: l' => l'
  | S n', x :: l' => x :: remove_nth n' l'
  end.

Definition dispatch (a : Action) (p : Page) : Page * list Event :=
  match a with
  | ChangeTopic v => fire (setSearchTopic v) p
  | ClickSearch => fire (handleSearch (current p)) p
  | ClickType isFree => fire (handleTypeSelection isFree) p
  | ClickDifficulty level =>
      let o := handleDifficultySelection (current p) level (current p) in
      ({| current := state o;
          pending := match result o with
                     | inr (Awaiting _ k) => pending p ++ [k]
                     | _ => pending p
                     end |},
       trace o)
  | ClickSection sectionId => fire (handleSectionComplete sectionId) p
  | SelectVideo v => fire (setSelectedVideo v) p
  | CloseVideo => fire onVideoClose p
  | CompleteVideo => fire handleVideoComplete p
  | CloseQuiz => fire onQuizClose p
  | RetryQuiz => fire (onQuizRetry (current p)) p
  | TypeDialogOpenChange b => fire (setShowTypeDialog b) p
  | DifficultyDialogOpenChange b => fire (setShowDifficultyDialog b) p
  | PythonModalOpenChange b => fire (setShowPythonModal b) p
  | QueryResponse n r =>
      match nth_error (pending p) n with
      | Some k =>
          fire (k r) {| current := current p; pending := remove_nth n (pending p) |}
      | None => (p, [])
      end
  end.

Fixpoint run (acts : list Action) (p : Page) : Page * list Event :=
  match acts with
  | [] => (p, [])
  | a :: acts' =>
      let '(p1, t1) := dispatch a p in
      let '(p2, t2) := run acts' p1 in
      (p2, t1 ++ t2)
  end.

End Handlers.

(** ** Vocabulary of the properties *)

(** The topic is empty or made of white space only. *)
Definition blank (topic : jsstring) : bool := forallb isWhiteSpace topic.

(** The error a response carries, if the query failed: the promise was
    rejected, or it resolved with a non-null [error]. *)
Definition failure (r : Response) : option JsError :=
  match r with
  | Rejected e => Some e
  | Resolved _ (Some e) => Some e
  | Resolved _ None => None
  end.

(** The records of a response, [data || []]. *)
Definition records (data : option (list CourseType)) : list CourseType :=
  match data with
  | Some d => d
  | None => []
  end.

(** [sec] with its completion flag set. *)
Definition completed (sec : PythonSection) : PythonSection :=
  {| id := id sec;
     title := title sec;
     description := description sec;
     isCompleted := true |}.

(** Position by position, [after] has the sections of [before] (same id,
    title and description) and every section that was complete still is. *)
Definition keepsCompleted (before after : list PythonSection) : Prop :=
  Forall2 (fun a b =>
             id b = id a /\ title b = title a /\ description b = description a
             /\ (isCompleted a = true -> isCompleted b = true))
          before after.

(** The three dialogs of the wizard that are open in a state. *)
Definition openDialogs (s : State) : nat :=
  (if showTypeDialog s then 1 else 0)
  + (if showDifficultyDialog s then 1 else 0)
  + (if showPythonModal s then 1 else 0).

(** The wizard as the dialogs let the user drive it: the dialogs are modal,
    so the search button is reachable only when none is open, and the
    buttons of a dialog only when that dialog is open. *)
Inductive WizardAction :=
| SubmitSearch
| ChooseType (isFree : bool)
| ChooseDifficulty (level : jsstring) (r : Response).

Definition enabled (a : WizardAction) (s : State) : bool :=
  match a with
  | SubmitSearch => Nat.eqb (openDialogs s) 0
  | ChooseType _ => showTypeDialog s
  | ChooseDifficulty _ _ => showDifficultyDialog s
  end.

Definition wizard (toLowerCase : jsstring -> jsstring) (a : WizardAction)
  (s : State) : State :=
  match a with
  | SubmitSearch => state (handleSearch s s)
  | ChooseType isFree => state (handleTypeSelection isFree s)
  | ChooseDifficulty level r => state (chooseDifficulty toLowerCase s level r s)
  end.

(** Every query that is pending resumes in the body of
    [handleDifficultySelection]. *)
Definition pendingAfterQuery (p : Page) : Prop :=
  Forall (fun k => k = afterQuery) (pending p).

(** *** The rows of the curriculum modal

    What [sections.map(...)] renders for one section: the [div] with its key
    and class, the heading and paragraph, and the button with its handler,
    variant and content. *)
Record SectionRow := {
  row_key : Z;
  row_className : string;
  row_title : string;
  row_description : string;
  button_onClick : Action;
  button_className : string;
  button_variant : string;
  button_icon : option string;
  button_text : string
}.

Definition renderSection (section : PythonSection) : SectionRow :=
  {| row_key := id section;
     row_className :=
       ("p-6 rounded-lg transition-colors duration-300 "
        ++ (if isCompleted section then "bg-green-100" else "bg-white")
        ++ " border hover:border-primary")%string;
     row_title := title section;
     row_description := description section;
     button_onClick := ClickSection (id section);
     button_className := "ml-4 transition-transform hover:scale-105";
     button_variant := if isCompleted section then "secondary" else "default";
     button_icon := if isCompleted section then Some "CheckCircle"%string else None;
     button_text := if isCompleted section then "Completed" else "Take Quiz" |}.

Definition renderSections (s : State) : list SectionRow :=
  map renderSection (sections s).

(** *** Vocabulary of the runs *)

Definition isSectionClick (a : Action) : bool :=
  match a with
  | ClickSection _ => true
  | _ => false
  end.

Definition isDifficultyClick (a : Action) : bool :=
  match a with
  | ClickDifficulty _ => true
  | _ => false
  end.

Definition isQueryResponse (a : Action) : bool :=
  match a with
  | QueryResponse _ _ => true
  | _ => false
  end.

(** The quiz button of the section with id [i] is clicked somewhere in [acts]. *)
Definition sectionClicked (i : Z) (acts : list Action) : bool :=
  existsb (fun a => match a with
                    | ClickSection sectionId => (i =? sectionId)%Z
                    | _ => false
                    end) acts.

(** What an event does to the sections list. *)
Definition sectionsAfter (l : list PythonSection) (a : Action)
  : list PythonSection :=
  match a with
  | ClickSection sectionId => completeIn sectionId l
  | _ => l
  end.

Definition isQuizCompleted (t : Toast) : bool :=
  String.eqb (toast_title t) "Quiz Completed".

(** The state with another results list. *)
Definition withCourses (v : list CourseType) (s : State) : State :=
  state (setCourses v s).

(** ** Running the page on small inputs *)

Definition topicPython : State := state (setSearchTopic (lit "Python") initialState).

Example search_empty_topic :
  handleSearch initialState initialState
  = {| result := inr tt; state := initialState; trace := [EToast errorEmptyTopic] |}.
Proof. reflexivity. Qed.

Example search_python_opens_type_dialog :
  showTypeDialog (state (handleSearch topicPython topicPython)) = true.
Proof. reflexivity. Qed.

Example complete_section_3 :
  map isCompleted
      (sections (state (handleSectionComplete 3 initialState)))
  = [false; false; true; false]
  /\ trace (handleSectionComplete 3 initialState) = [EToast quizCompleted].
Proof. split; reflexivity. Qed.

Example video_complete_abc123 :
  let o := handleVideoComplete (state (setSelectedVideo (lit "abc123") initialState)) in
  showQuiz (state o) = true /\ selectedVideo (state o) = [].
Proof. split; reflexivity. Qed.

Example python_expert_queries :
  let s := state (handleTypeSelection true topicPython) in
  queries (trace (chooseDifficulty asciiLower s (lit "Expert") (Resolved None None) s))
  = [ {| q_from := "courses"; q_select := "*"; q_eq_is_free := Some true;
         q_eq_difficulty_level := lit "expert";
         q_order := "created_at"; q_ascending := false |} ].
Proof. reflexivity. Qed.

(** ** Strings: equality and trimming *)

Lemma strict_eq_true_iff (a b : jsstring) : strict_eq a b = true <-> a = b.
Proof.
  revert b; induction a as [|x a IH]; intros [|y b]; simpl;
    try (split; [discriminate | discriminate]); try tauto.
  rewrite andb_true_iff, N.eqb_eq, IH.
  split; [intros [-> ->]; reflexivity | intros H; injection H; auto].
Qed.

Lemma strict_eq_refl (a : jsstring) : strict_eq a a = true.
Proof. apply strict_eq_true_iff; reflexivity. Qed.

Lemma trimStart_nil_iff (s : jsstring) : trimStart s = [] <-> blank s = true.
Proof.
  induction s as [|c s IH]; simpl; [tauto|].
  destruct (isWhiteSpace c); simpl; [exact IH|].
  split; discriminate.
Qed.

(** What [trimStart] leaves does not start with white space. *)
Lemma trimStart_head (s : jsstring) :
  match trimStart s with
  | [] => True
  | c :: _ => isWhiteSpace c = false
  end.
Proof.
  induction s as [|c s IH]; simpl; [exact I|].
  destruct (isWhiteSpace c) eqn:E; [exact IH | exact E].
Qed.

Lemma blank_app (s t : jsstring) : blank (s ++ t) = blank s && blank t.
Proof. apply forallb_app. Qed.

Lemma blank_rev (s : jsstring) : blank (rev s) = blank s.
Proof.
  induction s as [|c s IH]; simpl; [reflexivity|].
  rewrite blank_app, IH; simpl.
  rewrite andb_true_r; apply andb_comm.
Qed.

Lemma trim_nil_iff (s : jsstring) : trim s = [] <-> blank s = true.
Proof.
  unfold trim, trimEnd.
  rewrite <- trimStart_nil_iff.
  split.
  - intros H.
    assert (H1 : blank (trimStart s) = true).
    { rewrite <- blank_rev. apply trimStart_nil_iff.
      rewrite <- (rev_involutive (trimStart (rev (trimStart s)))), H.
      reflexivity. }
    pose proof (trimStart_head s) as Hh.
    destruct (trimStart s) as [|c t]; [reflexivity|].
    simpl in H1; rewrite Hh in H1; discriminate.
  - intros ->; reflexivity.
Qed.

Lemma truthy_trim (s : jsstring) : truthy (trim s) = negb (blank s).
Proof.
  destruct (blank s) eqn:E.
  - apply trim_nil_iff in E; rewrite E; reflexivity.
  - destruct (trim s) eqn:T; [|reflexivity].
    apply trim_nil_iff in T; congruence.
Qed.

Lemma blank_false_iff (s : jsstring) :
  blank s = false <-> Exists (fun c => isWhiteSpace c = false) s.
Proof.
  unfold blank; induction s as [|c s IH]; simpl.
  - split; [discriminate | intros H; inversion H].
  - rewrite andb_false_iff, IH; split.
    + intros [H|H]; [left | right]; assumption.
    + intros H; inversion H; subst; [left | right]; assumption.
Qed.

(** ** The diversion test *)

Lemma diverts_true_iff toLowerCase (c : State) (difficulty : jsstring) :
  diverts toLowerCase c difficulty = true
  <-> toLowerCase (searchTopic c) = lit "python" /\ difficulty = lit "Beginner".
Proof.
  unfold diverts; rewrite andb_true_iff, !strict_eq_true_iff; reflexivity.
Qed.

Lemma diverts_false toLowerCase (c : State) (difficulty : jsstring) :
  ~ (toLowerCase (searchTopic c) = lit "python" /\ difficulty = lit "Beginner") ->
  diverts toLowerCase c difficulty = false.
Proof.
  intros H; destruct (diverts toLowerCase c difficulty) eqn:E; [|reflexivity].
  apply diverts_true_iff in E; contradiction.
Qed.

(** ** The continuation of the query *)

Lemma afterQuery_failure (r : Response) {e : JsError} (s : State) :
  failure r = Some e ->
  afterQuery r s
  = {| result := inr tt;
       state := s;
       trace := [EConsoleError "Error fetching courses:" e; EToast fetchFailed] |}.
Proof.
  destruct r as [data [e'|] | e']; simpl; intros H; inversion H; subst; reflexivity.
Qed.

Lemma afterQuery_success (data : option (list CourseType)) (s : State) :
  afterQuery (Resolved data None) s
  = {| result := inr tt;
       state := state (setCourses (records data) s);
       trace := if noLength data then [EToast noCoursesFound] else [] |}.
Proof.
  destruct data as [[|c d]|]; reflexivity.
Qed.

Lemma afterQuery_sections (r : Response) (s : State) :
  sections (state (afterQuery r s)) = sections s.
Proof.
  destruct (failure r) as [e|] eqn:F.
  - rewrite (afterQuery_failure r s F); reflexivity.
  - destruct r as [data [e'|] | e']; try discriminate.
    rewrite afterQuery_success; reflexivity.
Qed.

(** ** The wizard *)

(** C1. In every state whose topic lower-cases to "python", choosing the
    difficulty "Beginner" opens the embedded curriculum and does nothing
    else: the handler ends without reaching the [await], no query is sent
    (whatever response the service would have given), no notification fires,
    and the recorded difficulty keeps its value. *)
Theorem C1_python_beginner_opens_curriculum :
  forall (toLowerCase : jsstring -> jsstring) (s : State) (r : Response),
    toLowerCase (searchTopic s) = lit "python" ->
    let o := chooseDifficulty toLowerCase s (lit "Beginner") r s in
    result (handleDifficultySelection toLowerCase s (lit "Beginner") s) = inr Finished
    /\ showPythonModal (state o) = true
    /\ state o = state (setShowPythonModal true s)
    /\ queries (trace o) = []
    /\ trace o = []
    /\ selectedDifficulty (state o) = selectedDifficulty s.
Proof.
  intros lower s r H.
  assert (D : diverts lower s (lit "Beginner") = true)
    by (apply diverts_true_iff; split; [exact H | reflexivity]).
  unfold chooseDifficulty, handleDifficultySelection; rewrite D.
  cbv zeta; repeat split.
Qed.

Lemma C1_python_beginner_witness :
  asciiLower (searchTopic topicPython) = lit "python"
  /\ showPythonModal
       (state (chooseDifficulty asciiLower topicPython (lit "Beginner")
                 (Resolved None None) topicPython)) = true.
Proof.
  split; [reflexivity|].
  apply (C1_python_beginner_opens_curriculum asciiLower topicPython
           (Resolved None None)); reflexivity.
Defined.

(** C2. For every topic and difficulty other than the python/Beginner pair,
    choosing the difficulty sends exactly one query: on [courses], with
    [is_free] equal to the recorded tier (the boolean a type choice has
    recorded), [difficulty_level] equal to the lower-cased difficulty, in
    descending order of [created_at]; when the query succeeds the results
    list becomes the records of the response, the empty list when there are
    none. *)
Theorem C2_other_choices_query_courses :
  forall (toLowerCase : jsstring -> jsstring) (s : State) (difficulty : jsstring),
    ~ (toLowerCase (searchTopic s) = lit "python" /\ difficulty = lit "Beginner") ->
    let q := {| q_from := "courses";
                q_select := "*";
                q_eq_is_free := selectedType s;
                q_eq_difficulty_level := toLowerCase difficulty;
                q_order := "created_at";
                q_ascending := false |} in
    (forall r, queries (trace (chooseDifficulty toLowerCase s difficulty r s)) = [q])
    /\ (forall s0 isFree,
           selectedType (state (handleTypeSelection isFree s0)) = Some isFree)
    /\ (forall data,
           courses (state (chooseDifficulty toLowerCase s difficulty
                             (Resolved data None) s))
           = match data with Some d => d | None => [] end)
    /\ courses (state (chooseDifficulty toLowerCase s difficulty
                         (Resolved None None) s)) = []
    /\ courses (state (chooseDifficulty toLowerCase s difficulty
                         (Resolved (Some []) None) s)) = [].
Proof.
  intros lower s difficulty H.
  pose proof (diverts_false lower s difficulty H) as D.
  cbv zeta; repeat split.
  - intros r.
    unfold chooseDifficulty, handleDifficultySelection; rewrite D.
    destruct (failure r) as [e|] eqn:F.
    + cbn -[afterQuery]. rewrite (afterQuery_failure r _ F). reflexivity.
    + destruct r as [data [e'|] | e']; try discriminate.
      cbn -[afterQuery]. rewrite afterQuery_success.
      destruct (noLength data); reflexivity.
  - intros data.
    unfold chooseDifficulty, handleDifficultySelection; rewrite D.
    cbn -[afterQuery]. rewrite afterQuery_success. reflexivity.
  - unfold chooseDifficulty, handleDifficultySelection; rewrite D. reflexivity.
  - unfold chooseDifficulty, handleDifficultySelection; rewrite D. reflexivity.
Qed.

Lemma C2_other_choices_witness :
  ~ (asciiLower (searchTopic topicPython) = lit "python"
     /\ lit "Expert" = lit "Beginner")
  /\ (forall r,
         queries (trace (chooseDifficulty asciiLower topicPython (lit "Expert") r
                           topicPython))
         = [ {| q_from := "courses"; q_select := "*"; q_eq_is_free := None;
                q_eq_difficulty_level := lit "expert";
                q_order := "created_at"; q_ascending := false |} ]).
Proof.
  assert (H : ~ (asciiLower (searchTopic topicPython) = lit "python"
                 /\ lit "Expert" = lit "Beginner"))
    by (intros [_ E]; discriminate E).
  split; [exact H|].
  exact (proj1 (C2_other_choices_query_courses asciiLower topicPython
                  (lit "Expert") H)).
Defined.

(** C3. When the topic is empty or made of white space only, [handleSearch]
    fires the one error notification and leaves the whole state as it was
    (the type dialog is not opened); when the topic has a character that is
    not white space, it opens the type dialog and fires nothing. *)
Theorem C3_search_needs_a_topic :
  forall s : State,
    handleSearch s s
    = if blank (searchTopic s) then
        {| result := inr tt; state := s; trace := [EToast errorEmptyTopic] |}
      else
        {| result := inr tt;
           state := {| searchTopic := searchTopic s;
                       showTypeDialog := true;
                       showDifficultyDialog := showDifficultyDialog s;
                       selectedType := selectedType s;
                       selectedDifficulty := selectedDifficulty s;
                       courses := courses s;
                       selectedVideo := selectedVideo s;
                       showQuiz := showQuiz s;
                       showPythonModal := showPythonModal s;
                       sections := sections s |};
           trace := [] |}.
Proof.
  intros s; unfold handleSearch.
  rewrite truthy_trim, negb_involutive.
  destruct (blank (searchTopic s)); reflexivity.
Qed.

(** C4. When the query fails, by a rejected promise or by a response that
    carries an error, the results list keeps its prior value, the one
    notification that fires is the failure notification, the handler ends
    normally (the error goes to [console.error] and no further), and the
    one query of the run is not sent again.  The same holds of the
    continuation in whatever state the page is when the response arrives. *)
Theorem C4_failed_query_keeps_results :
  forall (toLowerCase : jsstring -> jsstring) (s : State) (difficulty : jsstring)
         (r : Response) (e : JsError),
    ~ (toLowerCase (searchTopic s) = lit "python" /\ difficulty = lit "Beginner") ->
    failure r = Some e ->
    let o := chooseDifficulty toLowerCase s difficulty r s in
    courses (state o) = courses s
    /\ toasts (trace o) = [fetchFailed]
    /\ result o = inr tt
    /\ trace o = [EQuery (coursesQuery toLowerCase s difficulty);
                  EConsoleError "Error fetching courses:" e;
                  EToast fetchFailed]
    /\ (forall s', courses (state (afterQuery r s')) = courses s'
                   /\ toasts (trace (afterQuery r s')) = [fetchFailed]
                   /\ result (afterQuery r s') = inr tt).
Proof.
  intros lower s difficulty r e H F.
  pose proof (diverts_false lower s difficulty H) as D.
  unfold chooseDifficulty, handleDifficultySelection; rewrite D.
  cbn -[afterQuery]. rewrite (afterQuery_failure r _ F).
  repeat split; intros; rewrite (afterQuery_failure r _ F); reflexivity.
Qed.

Lemma C4_failed_query_witness :
  ~ (asciiLower (searchTopic topicPython) = lit "python"
     /\ lit "Hard" = lit "Beginner")
  /\ failure (Rejected (MkError "network")) = Some (MkError "network")
  /\ toasts (trace (chooseDifficulty asciiLower topicPython (lit "Hard")
                      (Rejected (MkError "network")) topicPython))
     = [fetchFailed].
Proof.
  assert (H : ~ (asciiLower (searchTopic topicPython) = lit "python"
                 /\ lit "Hard" = lit "Beginner"))
    by (intros [_ E]; discriminate E).
  split; [exact H|]. split; [reflexivity|].
  exact (proj1 (proj2 (C4_failed_query_keeps_results asciiLower topicPython
                         (lit "Hard") (Rejected (MkError "network"))
                         (MkError "network") H eq_refl))).
Defined.

(** C10. When the topic has a character that is not white space,
    [handleSearch] changes the type-dialog flag and nothing else: the topic,
    the results of an earlier query, the recorded tier and difficulty, the
    selected video, the quiz flag, the other two dialogs and the sections
    are the ones of the state before, and no event is produced. *)
Theorem C10_search_only_opens_type_dialog :
  forall s : State,
    Exists (fun c => isWhiteSpace c = false) (searchTopic s) ->
    let o := handleSearch s s in
    showTypeDialog (state o) = true
    /\ searchTopic (state o) = searchTopic s
    /\ courses (state o) = courses s
    /\ selectedType (state o) = selectedType s
    /\ selectedDifficulty (state o) = selectedDifficulty s
    /\ selectedVideo (state o) = selectedVideo s
    /\ showQuiz (state o) = showQuiz s
    /\ showDifficultyDialog (state o) = showDifficultyDialog s
    /\ showPythonModal (state o) = showPythonModal s
    /\ sections (state o) = sections s
    /\ map isCompleted (sections (state o)) = map isCompleted (sections s)
    /\ trace o = []
    /\ result o = inr tt.
Proof.
  intros s H; apply blank_false_iff in H.
  unfold handleSearch; rewrite truthy_trim, H.
  cbv zeta; repeat split.
Qed.

Lemma C10_search_frame_witness :
  Exists (fun c => isWhiteSpace c = false) (searchTopic topicPython)
  /\ courses (state (handleSearch topicPython topicPython)) = courses topicPython.
Proof.
  assert (H : Exists (fun c => isWhiteSpace c = false) (searchTopic topicPython))
    by (apply Exists_cons_hd; reflexivity).
  split; [exact H|].
  exact (proj1 (proj2 (proj2 (C10_search_only_opens_type_dialog topicPython H)))).
Defined.

(** ** The curriculum tracker *)

Lemma completeIn_length (i : Z) (l : list PythonSection) :
  List.length (completeIn i l) = List.length l.
Proof. apply length_map. Qed.

Lemma completeIn_nth (i : Z) (l : list PythonSection) (n : nat) :
  nth_error (completeIn i l) n
  = option_map (fun sec => if (id sec =? i)%Z then completed sec else sec)
               (nth_error l n).
Proof. unfold completeIn; apply nth_error_map. Qed.

Lemma completeIn_unknown (i : Z) (l : list PythonSection) :
  (forall sec, In sec l -> id sec <> i) -> completeIn i l = l.
Proof.
  induction l as [|sec l IH]; simpl; intros H; [reflexivity|].
  destruct (Z.eqb_spec (id sec) i) as [E|_].
  - exfalso; apply (H sec); [left; reflexivity | exact E].
  - f_equal; apply IH; intros sec' Hin; apply H; right; exact Hin.
Qed.

Lemma completeIn_idempotent (i : Z) (l : list PythonSection) :
  completeIn i (completeIn i l) = completeIn i l.
Proof.
  induction l as [|sec l IH]; simpl; [reflexivity|].
  f_equal; [|exact IH].
  destruct (Z.eqb_spec (id sec) i) as [E|N]; simpl.
  - destruct (Z.eqb_spec (id sec) i); [reflexivity | contradiction].
  - destruct (Z.eqb_spec (id sec) i); [contradiction | reflexivity].
Qed.

Lemma keepsCompleted_refl (l : list PythonSection) : keepsCompleted l l.
Proof. induction l; constructor; auto. Qed.

Lemma keepsCompleted_trans (l1 l2 l3 : list PythonSection) :
  keepsCompleted l1 l2 -> keepsCompleted l2 l3 -> keepsCompleted l1 l3.
Proof.
  intros H12; revert l3; induction H12 as [|a b l1 l2 Hab _ IH]; intros l3 H23.
  - inversion H23; constructor.
  - inversion H23 as [|b' c l2' l3' Hbc Htl]; subst.
    constructor; [|apply IH; exact Htl].
    destruct Hab as (? & ? & ? & ?), Hbc as (? & ? & ? & ?).
    repeat split; try congruence; auto.
Qed.

Lemma keepsCompleted_completeIn (i : Z) (l : list PythonSection) :
  keepsCompleted l (completeIn i l).
Proof.
  induction l as [|sec l IH]; simpl; constructor; [|exact IH].
  destruct (id sec =? i)%Z; simpl; auto.
Qed.

Lemma keepsCompleted_ids (l1 l2 : list PythonSection) :
  keepsCompleted l1 l2 -> map id l2 = map id l1 /\ List.length l2 = List.length l1.
Proof.
  induction 1 as [|a b l1 l2 (Hid & _) _ [IHm IHl]]; simpl; [split; reflexivity|].
  split; congruence.
Qed.

(** C5, as the code has it.  For an id that no section has,
    [handleSectionComplete] leaves the state as it was, so the sections keep
    their fields, their number and their order; the "Quiz Completed"
    notification fires all the same, once. *)
Theorem C5_unknown_id_keeps_sections :
  forall (sectionId : Z) (s : State),
    (forall sec, In sec (sections s) -> id sec <> sectionId) ->
    let o := handleSectionComplete sectionId s in
    sections (state o) = sections s
    /\ List.length (sections (state o)) = List.length (sections s)
    /\ state o = s
    /\ result o = inr tt
    /\ trace o = [EToast quizCompleted]
    /\ toasts (trace o) = [quizCompleted].
Proof.
  intros i s H.
  assert (E : state (handleSectionComplete i s) = s).
  { destruct s; cbn -[completeIn] in *. rewrite (completeIn_unknown i _ H). reflexivity. }
  cbv zeta; rewrite E; repeat split.
Qed.

Lemma C5_unknown_id_witness :
  (forall sec, In sec (sections initialState) -> id sec <> 99%Z)
  /\ sections (state (handleSectionComplete 99 initialState))
     = sections initialState.
Proof.
  assert (H : forall sec, In sec (sections initialState) -> id sec <> 99%Z).
  { simpl; intros sec [E|[E|[E|[E|[]]]]]; subst sec; simpl; discriminate. }
  split; [exact H|].
  exact (proj1 (C5_unknown_id_keeps_sections 99 initialState H)).
Defined.

(** C5, as stated, fails: 99 is the id of none of the four sections, and
    completing it does fire a notification. *)
Lemma C5_unknown_id_still_notifies :
  (forall sec, In sec (sections initialState) -> id sec <> 99%Z)
  /\ toasts (trace (handleSectionComplete 99 initialState)) <> [].
Proof.
  split.
  - simpl; intros sec [E|[E|[E|[E|[]]]]]; subst sec; simpl; discriminate.
  - simpl; discriminate.
Qed.

(** C6. For an id that a section has, whatever its completion flag,
    [handleSectionComplete] sets the flag of that section and changes none
    of its other fields, leaves the sections with another id as they are,
    keeps the number of sections, and fires the "Quiz Completed"
    notification; a second call in a row gives the same sections list as the
    first, with the flag still set. *)
Theorem C6_complete_section_sets_flag :
  forall (sectionId : Z) (s : State) (n : nat) (sec : PythonSection),
    nth_error (sections s) n = Some sec ->
    id sec = sectionId ->
    let o := handleSectionComplete sectionId s in
    let o2 := handleSectionComplete sectionId (state o) in
    nth_error (sections (state o)) n = Some (completed sec)
    /\ (forall m other,
           nth_error (sections s) m = Some other ->
           id other <> sectionId ->
           nth_error (sections (state o)) m = Some other)
    /\ List.length (sections (state o)) = List.length (sections s)
    /\ toasts (trace o) = [quizCompleted]
    /\ sections (state o2) = sections (state o)
    /\ nth_error (sections (state o2)) n = Some (completed sec)
    /\ toasts (trace o2) = [quizCompleted].
Proof.
  intros i s n sec Hn Hid; cbv zeta.
  assert (E1 : sections (state (handleSectionComplete i s))
               = completeIn i (sections s)) by reflexivity.
  assert (E2 : sections (state (handleSectionComplete i
                                  (state (handleSectionComplete i s))))
               = completeIn i (sections s))
    by (cbn [handleSectionComplete]; apply completeIn_idempotent).
  assert (Hc : nth_error (completeIn i (sections s)) n = Some (completed sec)).
  { rewrite completeIn_nth, Hn; simpl.
    destruct (Z.eqb_spec (id sec) i); [reflexivity | contradiction]. }
  rewrite E2, E1.
  repeat split; try assumption.
  - intros m other Hm Hne.
    rewrite completeIn_nth, Hm; simpl.
    destruct (Z.eqb_spec (id other) i); [contradiction | reflexivity].
  - apply completeIn_length.
Qed.

Lemma C6_complete_section_witness :
  let sec := {| id := 2;
                title := "Basics of Python";
                description := "Master fundamental concepts like variables, data types, and control structures.";
                isCompleted := false |} in
  nth_error (sections initialState) 1 = Some sec
  /\ id sec = 2%Z
  /\ nth_error (sections (state (handleSectionComplete 2 initialState))) 1
     = Some (completed sec).
Proof.
  cbv zeta.
  split; [reflexivity|]. split; [reflexivity|].
  exact (proj1 (C6_complete_section_sets_flag 2 initialState 1 _ eq_refl eq_refl)).
Defined.

(** *** The sections along the runs of the page *)

Lemma Forall_remove_nth {A} (P : A -> Prop) (n : nat) (l : list A) :
  Forall P l -> Forall P (remove_nth n l).
Proof.
  intros H; revert n; induction H as [|x l Hx Hl IH]; intros [|n]; simpl;
    try constructor; auto.
Qed.

Lemma dispatch_keepsCompleted toLowerCase (a : Action) (p : Page) :
  pendingAfterQuery p ->
  pendingAfterQuery (fst (dispatch toLowerCase a p))
  /\ keepsCompleted (sections (current p))
                    (sections (current (fst (dispatch toLowerCase a p)))).
Proof.
  intros Hp; unfold pendingAfterQuery in *.
  destruct a; simpl;
    try (split; [exact Hp | apply keepsCompleted_refl]).
  - (* ClickSearch *)
    unfold handleSearch.
    destruct (negb (truthy (trim (searchTopic (current p)))));
      split; try exact Hp; apply keepsCompleted_refl.
  - (* ClickDifficulty *)
    unfold handleDifficultySelection.
    destruct (diverts toLowerCase (current p) level); simpl.
    + split; [exact Hp | apply keepsCompleted_refl].
    + split; [|apply keepsCompleted_refl].
      apply Forall_app; split; [exact Hp | constructor; [reflexivity | constructor]].
  - (* ClickSection *)
    split; [exact Hp | apply keepsCompleted_completeIn].
  - (* QueryResponse *)
    destruct (nth_error (pending p) n) as [k|] eqn:E; simpl.
    + split; [apply Forall_remove_nth; exact Hp|].
      assert (Hk : k = afterQuery).
      { apply nth_error_In in E.
        rewrite Forall_forall in Hp; apply Hp; exact E. }
      subst k; rewrite afterQuery_sections; apply keepsCompleted_refl.
    + split; [exact Hp | apply keepsCompleted_refl].
Qed.

Lemma run_keepsCompleted toLowerCase (acts : list Action) :
  forall p : Page,
    pendingAfterQuery p ->
    pendingAfterQuery (fst (run toLowerCase acts p))
    /\ keepsCompleted (sections (current p))
                      (sections (current (fst (run toLowerCase acts p)))).
Proof.
  induction acts as [|a acts IH]; intros p Hp; simpl.
  - split; [exact Hp | apply keepsCompleted_refl].
  - destruct (dispatch_keepsCompleted toLowerCase a p Hp) as [Hp1 Hk1].
    destruct (dispatch toLowerCase a p) as [p1 t1]; simpl in *.
    destruct (IH p1 Hp1) as [Hp2 Hk2].
    destruct (run toLowerCase acts p1) as [p2 t2]; simpl in *.
    split; [exact Hp2 | eapply keepsCompleted_trans; eassumption].
Qed.

(** C7. From the initial page (four sections, ids 1 to 4, none complete),
    after any sequence of events of the page, responses of pending queries
    included, the sections list has four entries with the ids 1, 2, 3, 4 in
    this order, each still the catalog entry of its position; and whatever
    event comes next, every section that is complete before it is complete
    after it. *)
Theorem C7_sections_fixed_and_monotone :
  forall (toLowerCase : jsstring -> jsstring) (acts : list Action) (a : Action),
    let p := fst (run toLowerCase acts initialPage) in
    let p' := fst (dispatch toLowerCase a p) in
    map isCompleted (sections (current initialPage)) = [false; false; false; false]
    /\ map id (sections (current p)) = [1; 2; 3; 4]%Z
    /\ List.length (sections (current p)) = 4
    /\ keepsCompleted pythonSections (sections (current p))
    /\ map id (sections (current p')) = [1; 2; 3; 4]%Z
    /\ keepsCompleted (sections (current p)) (sections (current p')).
Proof.
  intros lower acts a; cbv zeta.
  assert (H0 : pendingAfterQuery initialPage) by constructor.
  destruct (run_keepsCompleted lower acts initialPage H0) as [Hp Hk].
  destruct (dispatch_keepsCompleted lower a _ Hp) as [_ Hk'].
  pose proof (keepsCompleted_ids _ _ Hk) as [Hm Hl].
  pose proof (keepsCompleted_ids _ _ Hk') as [Hm' _].
  split; [reflexivity|].
  split; [rewrite Hm; reflexivity|].
  split; [rewrite Hl; reflexivity|].
  split; [exact Hk|].
  split; [rewrite Hm', Hm; reflexivity | exact Hk'].
Qed.

(** *** Exclusive dialogs

    Every step of the wizard other than the diversion keeps at most one
    dialog open. *)
Lemma wizard_exclusive_but_diversion toLowerCase (a : WizardAction) (s : State) :
  openDialogs s <= 1 ->
  enabled a s = true ->
  (forall level r, a = ChooseDifficulty level r ->
                   diverts toLowerCase s level = false) ->
  openDialogs (wizard toLowerCase a s) <= 1.
Proof.
  intros H1 En Hd; destruct a as [|isFree|level r]; simpl in *.
  - apply Nat.eqb_eq in En.
    unfold handleSearch; destruct (negb (truthy (trim (searchTopic s)))).
    + simpl; lia.
    + unfold openDialogs in *; simpl.
      destruct (showTypeDialog s), (showDifficultyDialog s), (showPythonModal s);
        simpl in *; lia.
  - unfold openDialogs in *; simpl; rewrite En in H1.
    destruct (showDifficultyDialog s), (showPythonModal s); simpl in *; lia.
  - unfold chooseDifficulty, handleDifficultySelection.
    rewrite (Hd level r eq_refl).
    assert (E : forall s', openDialogs (state (afterQuery r s')) = openDialogs s').
    { intros s'. destruct (failure r) as [e|] eqn:F.
      - rewrite (afterQuery_failure r s' F); reflexivity.
      - destruct r as [data [e'|] | e']; try discriminate.
        rewrite afterQuery_success; reflexivity. }
    cbn -[afterQuery]; rewrite E.
    unfold openDialogs in *; simpl; rewrite En in H1.
    destruct (showTypeDialog s), (showPythonModal s); simpl in *; lia.
Qed.

(** C8, the diversion.  In a state whose topic lower-cases to "python",
    with the difficulty dialog open, choosing "Beginner" opens the embedded
    curriculum and leaves the difficulty dialog open: two dialogs of the
    wizard are open at once. *)
Theorem C8_diversion_leaves_difficulty_dialog_open :
  forall (toLowerCase : jsstring -> jsstring) (s : State) (r : Response),
    toLowerCase (searchTopic s) = lit "python" ->
    showDifficultyDialog s = true ->
    let o := chooseDifficulty toLowerCase s (lit "Beginner") r s in
    showPythonModal (state o) = true
    /\ showDifficultyDialog (state o) = true
    /\ 2 <= openDialogs (state o).
Proof.
  intros lower s r H Hd.
  assert (D : diverts lower s (lit "Beginner") = true)
    by (apply diverts_true_iff; split; [exact H | reflexivity]).
  unfold chooseDifficulty, handleDifficultySelection; rewrite D.
  cbv zeta; cbn. unfold openDialogs; cbn. rewrite Hd.
  repeat split. destruct (showTypeDialog s); cbn; lia.
Qed.

(** The run of the wizard that reaches it: type "python", submit the
    search, pick a tier, pick "Beginner". *)
Lemma C8_diversion_witness :
  let s := current (fst (run asciiLower
                           [ChangeTopic (lit "python"); ClickSearch; ClickType true]
                           initialPage)) in
  let s' := current (fst (run asciiLower
                            [ChangeTopic (lit "python"); ClickSearch; ClickType true;
                             ClickDifficulty (lit "Beginner")]
                            initialPage)) in
  asciiLower (searchTopic s) = lit "python"
  /\ showDifficultyDialog s = true
  /\ openDialogs s = 1
  /\ showPythonModal s' = true
  /\ showDifficultyDialog s' = true
  /\ 2 <= openDialogs s'.
Proof.
  cbv zeta.
  split; [reflexivity|]. split; [reflexivity|]. split; [reflexivity|].
  exact (C8_diversion_leaves_difficulty_dialog_open asciiLower
           (current (fst (run asciiLower
                            [ChangeTopic (lit "python"); ClickSearch; ClickType true]
                            initialPage)))
           (Resolved None None) eq_refl eq_refl).
Defined.

(** ** Video and quiz *)

(** C9. [onQuizRetry] sets the selected video to the value it has: the
    state after it is the state before it, no event is produced, and the
    video dialog is open exactly when that identifier is not the empty
    string.  After [handleVideoComplete], which shows the quiz and clears the
    selected video, a retry leaves the selected video empty and the video
    dialog closed. *)
Theorem C9_retry_keeps_selected_video :
  forall s : State,
    let o := onQuizRetry s s in
    let s1 := state (handleVideoComplete s) in
    let o1 := onQuizRetry s1 s1 in
    selectedVideo (state o) = selectedVideo s
    /\ state o = s
    /\ trace o = []
    /\ (videoIsOpen (state o) = true <-> selectedVideo s <> [])
    /\ showQuiz s1 = true
    /\ selectedVideo s1 = []
    /\ selectedVideo (state o1) = []
    /\ videoIsOpen (state o1) = false.
Proof.
  intros s; cbv zeta.
  assert (E : state (onQuizRetry s s) = s) by (destruct s; reflexivity).
  rewrite E; repeat split.
  - unfold videoIsOpen; destruct (selectedVideo s); [discriminate | intros _; discriminate].
  - unfold videoIsOpen; destruct (selectedVideo s); [intros H; contradiction | reflexivity].
Qed.

(** ** Further properties of the query flow *)

Lemma afterQuery_outcome (r : Response) (s : State) :
  afterQuery r s
  = match r with
    | Resolved data None =>
        {| result := inr tt;
           state := withCourses (records data) s;
           trace := if noLength data then [EToast noCoursesFound] else [] |}
    | Resolved _ (Some e) | Rejected e =>
        {| result := inr tt;
           state := s;
           trace := [EConsoleError "Error fetching courses:" e; EToast fetchFailed] |}
    end.
Proof.
  destruct r as [data [e|] | e]; try reflexivity.
  apply afterQuery_success.
Qed.

Lemma withCourses_same (s : State) : withCourses (courses s) s = s.
Proof. destruct s; reflexivity. Qed.

Lemma noLength_records (data : option (list CourseType)) :
  noLength data = Nat.eqb (List.length (records data)) 0.
Proof. destruct data as [[|c d]|]; reflexivity. Qed.

(** A successful response replaces the results by its records, in whatever
    state it arrives; the "No courses found" notification fires, once, exactly
    when there are no records ([data] null or an empty array), and nothing is
    written to the console. *)
Theorem success_replaces_results_and_reports_none :
  forall (data : option (list CourseType)) (s : State),
    let o := afterQuery (Resolved data None) s in
    courses (state o) = records data
    /\ toasts (trace o)
       = (if Nat.eqb (List.length (records data)) 0 then [noCoursesFound] else [])
    /\ trace o = map EToast (toasts (trace o))
    /\ result o = inr tt.
Proof.
  intros data s; cbv zeta.
  rewrite afterQuery_outcome, <- noLength_records.
  destruct (noLength data); repeat split.
Qed.

(** Whatever the response, the continuation ends normally, sends no further
    query, fires at most one notification, and writes no cell of the state
    other than the results list. *)
Theorem response_only_writes_results :
  forall (r : Response) (s : State),
    let o := afterQuery r s in
    result o = inr tt
    /\ state o = withCourses (courses (state o)) s
    /\ queries (trace o) = []
    /\ List.length (toasts (trace o)) <= 1.
Proof.
  intros r s; cbv zeta; rewrite afterQuery_outcome.
  destruct r as [data [e|] | e]; cbn [result state trace];
    try (rewrite withCourses_same; repeat split; simpl; lia).
  destruct (noLength data); repeat split; simpl; lia.
Qed.

Lemma remove_nth_length {A} (n : nat) (l : list A) :
  n < List.length l -> List.length (remove_nth n l) = List.length l - 1.
Proof.
  revert n; induction l as [|x l IH]; intros [|n]; simpl; intros H; try lia.
  rewrite IH by lia. lia.
Qed.

Lemma dispatch_response toLowerCase (n : nat) (r : Response) (p : Page) :
  pendingAfterQuery p ->
  n < List.length (pending p) ->
  dispatch toLowerCase (QueryResponse n r) p
  = ({| current := state (afterQuery r (current p));
        pending := remove_nth n (pending p) |},
     trace (afterQuery r (current p))).
Proof.
  intros Hp Hn; simpl.
  destruct (nth_error (pending p) n) as [k|] eqn:E.
  - assert (Hk : k = afterQuery).
    { apply nth_error_In in E.
      unfold pendingAfterQuery in Hp; rewrite Forall_forall in Hp; auto. }
    subst k; reflexivity.
  - apply nth_error_None in E; lia.
Qed.

(** The response that arrives last wins.  In a page reached from the initial
    one, when two pending queries are answered with success one after the
    other, in whatever order they were sent, the results are the records of
    the first response after the first and of the second after the second;
    the rest of the state is not written and both queries leave the pending
    ones. *)
Theorem last_response_wins :
  forall (toLowerCase : jsstring -> jsstring) (acts : list Action) (n m : nat)
         (d1 d2 : option (list CourseType)),
    let p := fst (run toLowerCase acts initialPage) in
    let p1 := fst (dispatch toLowerCase (QueryResponse n (Resolved d1 None)) p) in
    let p2 := fst (dispatch toLowerCase (QueryResponse m (Resolved d2 None)) p1) in
    n < List.length (pending p) ->
    m < List.length (pending p) - 1 ->
    current p1 = withCourses (records d1) (current p)
    /\ current p2 = withCourses (records d2) (current p)
    /\ courses (current p2) = records d2
    /\ List.length (pending p2) = List.length (pending p) - 2.
Proof.
  intros lower acts n m d1 d2; cbv zeta; intros Hn Hm.
  assert (H0 : pendingAfterQuery initialPage) by constructor.
  destruct (run_keepsCompleted lower acts initialPage H0) as [Hp _].
  set (p := fst (run lower acts initialPage)) in *.
  rewrite (dispatch_response lower n (Resolved d1 None) p Hp Hn).
  cbn [fst]; rewrite afterQuery_outcome; cbn [state].
  assert (Hp1 : pendingAfterQuery
                  {| current := withCourses (records d1) (current p);
                     pending := remove_nth n (pending p) |})
    by (apply Forall_remove_nth; exact Hp).
  rewrite dispatch_response;
    [|exact Hp1 | cbn [pending]; rewrite remove_nth_length by exact Hn; exact Hm].
  cbn [fst current pending]; rewrite afterQuery_outcome; cbn [state].
  split; [reflexivity|]. split; [reflexivity|]. split; [reflexivity|].
  rewrite (remove_nth_length m);
    rewrite (remove_nth_length n) by exact Hn; [lia | exact Hm].
Qed.

Lemma last_response_wins_witness :
  let p := fst (run asciiLower
                  [ClickDifficulty (lit "Hard"); ClickDifficulty (lit "Expert")]
                  initialPage) in
  1 < List.length (pending p)
  /\ 0 < List.length (pending p) - 1
  /\ courses
       (current
          (fst (dispatch asciiLower (QueryResponse 0 (Resolved (Some []) None))
                  (fst (dispatch asciiLower (QueryResponse 1 (Resolved None None))
                          p)))))
     = records (Some []).
Proof.
  cbv zeta.
  assert (H1 : 1 < List.length
                     (pending (fst (run asciiLower
                                      [ClickDifficulty (lit "Hard");
                                       ClickDifficulty (lit "Expert")]
                                      initialPage)))) by (simpl; lia).
  assert (H2 : 0 < List.length
                     (pending (fst (run asciiLower
                                      [ClickDifficulty (lit "Hard");
                                       ClickDifficulty (lit "Expert")]
                                      initialPage))) - 1) by (simpl; lia).
  split; [exact H1|]. split; [exact H2|].
  exact (proj1 (proj2 (proj2 (last_response_wins asciiLower
                                [ClickDifficulty (lit "Hard");
                                 ClickDifficulty (lit "Expert")]
                                1 0 None (Some []) H1 H2)))).
Defined.

(** The results list changes only when a response arrives: no click, no
    typing and no dialog or video event writes it. *)
Theorem results_change_only_on_response :
  forall (toLowerCase : jsstring -> jsstring) (a : Action) (p : Page),
    isQueryResponse a = false ->
    courses (current (fst (dispatch toLowerCase a p))) = courses (current p).
Proof.
  intros lower a p H; destruct a; simpl in *; try reflexivity; try discriminate.
  - unfold handleSearch.
    destruct (negb (truthy (trim (searchTopic (current p))))); reflexivity.
  - unfold handleDifficultySelection.
    destruct (diverts lower (current p) level); reflexivity.
Qed.

Lemma results_change_only_on_response_witness :
  isQueryResponse (ClickDifficulty (lit "Hard")) = false
  /\ courses (current (fst (dispatch asciiLower (ClickDifficulty (lit "Hard"))
                              initialPage)))
     = courses (current initialPage).
Proof.
  split; [reflexivity|].
  exact (results_change_only_on_response asciiLower
           (ClickDifficulty (lit "Hard")) initialPage eq_refl).
Defined.

Lemma wizard_exclusive_witness :
  let s := state (handleSearch topicPython topicPython) in
  openDialogs s <= 1
  /\ enabled (ChooseType true) s = true
  /\ openDialogs (wizard asciiLower (ChooseType true) s) <= 1.
Proof.
  cbv zeta.
  assert (H1 : openDialogs (state (handleSearch topicPython topicPython)) <= 1)
    by (vm_compute; lia).
  split; [exact H1|]. split; [reflexivity|].
  apply (wizard_exclusive_but_diversion asciiLower (ChooseType true)
           (state (handleSearch topicPython topicPython)) H1 eq_refl).
  intros level r E; discriminate E.
Defined.

Lemma run_cons toLowerCase (a : Action) (acts : list Action) (p : Page) :
  run toLowerCase (a :: acts) p
  = (fst (run toLowerCase acts (fst (dispatch toLowerCase a p))),
     snd (dispatch toLowerCase a p)
     ++ snd (run toLowerCase acts (fst (dispatch toLowerCase a p)))).
Proof.
  simpl.
  destruct (dispatch toLowerCase a p) as [p1 t1]; simpl.
  destruct (run toLowerCase acts p1) as [p2 t2]; reflexivity.
Qed.

Lemma dispatch_search_accepts toLowerCase (p : Page) :
  blank (searchTopic (current p)) = false ->
  dispatch toLowerCase ClickSearch p
  = ({| current := state (setShowTypeDialog true (current p));
        pending := pending p |}, []).
Proof.
  intros Hb; simpl; unfold fire, handleSearch.
  rewrite truthy_trim, Hb; reflexivity.
Qed.

Lemma dispatch_type toLowerCase (isFree : bool) (p : Page) :
  dispatch toLowerCase (ClickType isFree) p
  = ({| current := state (handleTypeSelection isFree (current p));
        pending := pending p |}, []).
Proof. reflexivity. Qed.

Lemma dispatch_difficulty_queries toLowerCase (level : jsstring) (p : Page) :
  diverts toLowerCase (current p) level = false ->
  dispatch toLowerCase (ClickDifficulty level) p
  = ({| current := state (setShowDifficultyDialog false
                            (state (setSelectedDifficulty level (current p))));
        pending := pending p ++ [afterQuery] |},
     [EQuery (coursesQuery toLowerCase (current p) level)]).
Proof.
  intros D; simpl; unfold handleDifficultySelection; rewrite D; reflexivity.
Qed.

(** One round of the wizard.  From a page with no query pending and a topic
    that is not blank, submitting the search, picking the tier [isFree],
    picking a difficulty that is not diverted and receiving a successful
    response sends one query, whose [is_free] filter is the tier just picked
    and whose [difficulty_level] is the lower-cased difficulty, and ends
    with both dialogs closed, tier and difficulty recorded, the results
    replaced and nothing pending; the topic is kept. *)
Theorem wizard_round_queries_with_picked_tier :
  forall (toLowerCase : jsstring -> jsstring) (p : Page) (isFree : bool)
         (level : jsstring) (data : option (list CourseType)),
    pending p = [] ->
    blank (searchTopic (current p)) = false ->
    ~ (toLowerCase (searchTopic (current p)) = lit "python"
       /\ level = lit "Beginner") ->
    let out := run toLowerCase
                   [ClickSearch; ClickType isFree; ClickDifficulty level;
                    QueryResponse 0 (Resolved data None)] p in
    queries (snd out)
    = [ {| q_from := "courses"; q_select := "*";
           q_eq_is_free := Some isFree;
           q_eq_difficulty_level := toLowerCase level;
           q_order := "created_at"; q_ascending := false |} ]
    /\ showTypeDialog (current (fst out)) = false
    /\ showDifficultyDialog (current (fst out)) = false
    /\ selectedType (current (fst out)) = Some isFree
    /\ selectedDifficulty (current (fst out)) = level
    /\ courses (current (fst out)) = records data
    /\ searchTopic (current (fst out)) = searchTopic (current p)
    /\ pending (fst out) = [].
Proof.
  intros lower p isFree level data Hp Hb Hd.
  pose proof (diverts_false lower (current p) level Hd) as D.
  cbv zeta.
  rewrite run_cons, (dispatch_search_accepts lower p Hb); cbn [fst snd].
  rewrite run_cons, dispatch_type; cbn [fst snd current pending].
  rewrite run_cons, dispatch_difficulty_queries by exact D.
  cbn [fst snd current pending]; rewrite Hp; cbn [app].
  rewrite run_cons, dispatch_response;
    [| constructor; [reflexivity | constructor] | simpl; lia].
  cbn [fst snd current pending run remove_nth]; rewrite afterQuery_outcome.
  destruct (noLength data); repeat split.
Qed.

Lemma wizard_round_witness :
  let p := {| current := topicPython; pending := [] |} in
  let out := run asciiLower
                 [ClickSearch; ClickType false; ClickDifficulty (lit "Expert");
                  QueryResponse 0 (Resolved None None)] p in
  pending p = []
  /\ blank (searchTopic (current p)) = false
  /\ ~ (asciiLower (searchTopic (current p)) = lit "python"
        /\ lit "Expert" = lit "Beginner")
  /\ selectedType (current (fst out)) = Some false.
Proof.
  cbv zeta.
  assert (H : ~ (asciiLower (searchTopic topicPython) = lit "python"
                 /\ lit "Expert" = lit "Beginner"))
    by (intros [_ E]; discriminate E).
  split; [reflexivity|]. split; [reflexivity|]. split; [exact H|].
  exact (proj1 (proj2 (proj2 (proj2
           (wizard_round_queries_with_picked_tier asciiLower
              {| current := topicPython; pending := [] |} false (lit "Expert")
              None eq_refl eq_refl H))))).
Defined.

(** The diversion looks at the topic as typed, not trimmed.  Lower-casing
    never shortens a string, so a topic of more than six code units is never
    diverted: whatever the difficulty, the query is sent and the curriculum
    modal keeps its state. *)
Theorem long_topic_is_never_diverted :
  forall (toLowerCase : jsstring -> jsstring) (s : State) (level : jsstring)
         (r : Response),
    (forall x, List.length x <= List.length (toLowerCase x)) ->
    6 < List.length (searchTopic s) ->
    let o := chooseDifficulty toLowerCase s level r s in
    diverts toLowerCase s level = false
    /\ queries (trace o) = [coursesQuery toLowerCase s level]
    /\ showPythonModal (state o) = showPythonModal s.
Proof.
  intros lower s level r Hlen Hs.
  assert (D : diverts lower s level = false).
  { apply diverts_false; intros [E _].
    specialize (Hlen (searchTopic s)); rewrite E in Hlen; simpl in Hlen; lia. }
  cbv zeta; unfold chooseDifficulty, handleDifficultySelection; rewrite D.
  cbn -[afterQuery]; rewrite afterQuery_outcome.
  destruct r as [data [e|] | e]; [| destruct (noLength data) |]; repeat split.
Qed.

Lemma long_topic_witness :
  let s := state (setSearchTopic (lit " Python") initialState) in
  (forall x, List.length x <= List.length (asciiLower x))
  /\ 6 < List.length (searchTopic s)
  /\ showTypeDialog (state (handleSearch s s)) = true
  /\ diverts asciiLower s (lit "Beginner") = false.
Proof.
  cbv zeta.
  assert (H : forall x, List.length x <= List.length (asciiLower x))
    by (intros x; unfold asciiLower; rewrite length_map; lia).
  assert (H6 : 6 < List.length
                     (searchTopic (state (setSearchTopic (lit " Python")
                                            initialState))))
    by (simpl; lia).
  split; [exact H|]. split; [exact H6|]. split; [reflexivity|].
  exact (proj1 (long_topic_is_never_diverted asciiLower
                  (state (setSearchTopic (lit " Python") initialState))
                  (lit "Beginner") (Resolved None None) H H6)).
Defined.

(** ** Further properties of the curriculum tracker *)

Lemma completeIn_comm (i j : Z) (l : list PythonSection) :
  completeIn i (completeIn j l) = completeIn j (completeIn i l).
Proof.
  induction l as [|sec l IH]; simpl; [reflexivity|].
  f_equal; [|exact IH].
  destruct (id sec =? j)%Z eqn:Ej, (id sec =? i)%Z eqn:Ei; simpl;
    rewrite ?Ej, ?Ei; reflexivity.
Qed.

(** Completing two sections gives the same state in either order. *)
Theorem section_completions_commute :
  forall (i j : Z) (s : State),
    state (handleSectionComplete i (state (handleSectionComplete j s)))
    = state (handleSectionComplete j (state (handleSectionComplete i s))).
Proof.
  intros i j s; cbn -[completeIn].
  rewrite completeIn_comm; reflexivity.
Qed.

Lemma dispatch_sections toLowerCase (a : Action) (p : Page) :
  pendingAfterQuery p ->
  sections (current (fst (dispatch toLowerCase a p)))
  = sectionsAfter (sections (current p)) a.
Proof.
  intros Hp; destruct a; simpl; try reflexivity.
  - unfold handleSearch.
    destruct (negb (truthy (trim (searchTopic (current p))))); reflexivity.
  - unfold handleDifficultySelection.
    destruct (diverts toLowerCase (current p) level); reflexivity.
  - destruct (nth_error (pending p) n) as [k|] eqn:E; simpl; [|reflexivity].
    assert (Hk : k = afterQuery).
    { apply nth_error_In in E.
      unfold pendingAfterQuery in Hp; rewrite Forall_forall in Hp; auto. }
    subst k; apply afterQuery_sections.
Qed.

Lemma run_sections toLowerCase (acts : list Action) :
  forall p : Page,
    pendingAfterQuery p ->
    sections (current (fst (run toLowerCase acts p)))
    = fold_left sectionsAfter acts (sections (current p)).
Proof.
  induction acts as [|a acts IH]; intros p Hp; [reflexivity|].
  rewrite run_cons; cbn [fst fold_left].
  rewrite IH by (apply dispatch_keepsCompleted; exact Hp).
  rewrite dispatch_sections by exact Hp; reflexivity.
Qed.

Lemma fold_sectionsAfter_completed (acts : list Action) :
  forall l : list PythonSection,
    map isCompleted (fold_left sectionsAfter acts l)
    = map (fun sec => isCompleted sec || sectionClicked (id sec) acts) l.
Proof.
  induction acts as [|a acts IH]; intros l.
  - simpl; apply map_ext; intros sec; rewrite orb_false_r; reflexivity.
  - cbn [fold_left]; rewrite IH.
    destruct a; cbn [sectionsAfter sectionClicked existsb orb];
      try reflexivity.
    unfold completeIn; rewrite map_map; apply map_ext; intros sec.
    destruct (id sec =? sectionId)%Z; simpl; [|reflexivity].
    rewrite orb_true_r; reflexivity.
Qed.

(** In a session that starts at the initial page, a section is complete
    exactly when its quiz button has been clicked at some point: no other
    event, and no click on another section, completes it or clears it. *)
Theorem section_complete_iff_clicked :
  forall (toLowerCase : jsstring -> jsstring) (acts : list Action),
    map isCompleted (sections (current (fst (run toLowerCase acts initialPage))))
    = map (fun i => sectionClicked i acts) [1; 2; 3; 4]%Z.
Proof.
  intros lower acts.
  rewrite run_sections by constructor.
  rewrite fold_sectionsAfter_completed; reflexivity.
Qed.

Lemma toasts_app (t1 t2 : list Event) : toasts (t1 ++ t2) = toasts t1 ++ toasts t2.
Proof. apply flat_map_app. Qed.

Lemma dispatch_quiz_toasts toLowerCase (a : Action) (p : Page) :
  pendingAfterQuery p ->
  filter isQuizCompleted (toasts (snd (dispatch toLowerCase a p)))
  = if isSectionClick a then [quizCompleted] else [].
Proof.
  intros Hp; destruct a; simpl; try reflexivity.
  - unfold handleSearch.
    destruct (negb (truthy (trim (searchTopic (current p))))); reflexivity.
  - unfold handleDifficultySelection.
    destruct (diverts toLowerCase (current p) level); reflexivity.
  - destruct (nth_error (pending p) n) as [k|] eqn:E; simpl; [|reflexivity].
    assert (Hk : k = afterQuery).
    { apply nth_error_In in E.
      unfold pendingAfterQuery in Hp; rewrite Forall_forall in Hp; auto. }
    subst k; rewrite afterQuery_outcome.
    destruct r as [data [e|] | e]; [| destruct (noLength data) |]; reflexivity.
Qed.

Lemma run_quiz_toasts toLowerCase (acts : list Action) :
  forall p : Page,
    pendingAfterQuery p ->
    filter isQuizCompleted (toasts (snd (run toLowerCase acts p)))
    = repeat quizCompleted (List.length (filter isSectionClick acts)).
Proof.
  induction acts as [|a acts IH]; intros p Hp; [reflexivity|].
  rewrite run_cons; cbn [snd].
  rewrite toasts_app, filter_app, dispatch_quiz_toasts by exact Hp.
  rewrite IH by (apply dispatch_keepsCompleted; exact Hp).
  simpl; destruct (isSectionClick a); reflexivity.
Qed.

(** Every click on a quiz button fires one "Quiz Completed" notification,
    also for a section that is complete already, and nothing else of the
    page fires that notification: in a session the notifications of that
    title are as many as the clicks on quiz buttons. *)
Theorem quiz_notifications_count_clicks :
  forall (toLowerCase : jsstring -> jsstring) (acts : list Action),
    filter isQuizCompleted (toasts (snd (run toLowerCase acts initialPage)))
    = repeat quizCompleted (List.length (filter isSectionClick acts)).
Proof.
  intros lower acts; apply run_quiz_toasts; constructor.
Qed.

Lemma distinct_ids_distinct_places (l : list PythonSection) (n m : nat)
  (a b : PythonSection) :
  NoDup (map id l) ->
  nth_error l n = Some a ->
  nth_error l m = Some b ->
  id a = id b ->
  n = m.
Proof.
  intros Hnd Hn Hm Hid.
  rewrite NoDup_nth_error in Hnd; apply Hnd.
  - rewrite length_map; apply nth_error_Some; congruence.
  - rewrite !nth_error_map, Hn, Hm; simpl; congruence.
Qed.

(** The rows of the curriculum modal and their buttons.  In a page reached
    from the initial one the keys of the rows are distinct, and clicking the
    button of a row turns that row to its completed look (green background,
    secondary button, check icon, "Completed") with the same key, title,
    description and handler, and leaves every other row as rendered. *)
Theorem quiz_button_completes_its_row :
  forall (toLowerCase : jsstring -> jsstring) (acts : list Action) (n : nat)
         (row : SectionRow),
    let p := fst (run toLowerCase acts initialPage) in
    let p' := fst (dispatch toLowerCase (button_onClick row) p) in
    nth_error (renderSections (current p)) n = Some row ->
    NoDup (map row_key (renderSections (current p)))
    /\ nth_error (renderSections (current p')) n
       = Some {| row_key := row_key row;
                 row_className :=
                   "p-6 rounded-lg transition-colors duration-300 bg-green-100 border hover:border-primary";
                 row_title := row_title row;
                 row_description := row_description row;
                 button_onClick := button_onClick row;
                 button_className := button_className row;
                 button_variant := "secondary";
                 button_icon := Some "CheckCircle"%string;
                 button_text := "Completed" |}
    /\ (forall m, m <> n ->
          nth_error (renderSections (current p')) m
          = nth_error (renderSections (current p)) m).
Proof.
  intros lower acts n row; cbv zeta; intros Hrow.
  assert (H0 : pendingAfterQuery initialPage) by constructor.
  destruct (run_keepsCompleted lower acts initialPage H0) as [Hp Hk].
  set (p := fst (run lower acts initialPage)) in *.
  apply keepsCompleted_ids in Hk; destruct Hk as [Hids _].
  assert (Hnd : NoDup (map id (sections (current p)))).
  { rewrite Hids; simpl.
    repeat (constructor; [simpl; intuition discriminate|]); constructor. }
  unfold renderSections in *.
  rewrite nth_error_map in Hrow.
  destruct (nth_error (sections (current p)) n) as [sec|] eqn:Hsec;
    [|discriminate].
  simpl in Hrow; injection Hrow as <-.
  cbn [button_onClick renderSection].
  rewrite dispatch_sections by exact Hp; cbn [sectionsAfter].
  split; [rewrite map_map; exact Hnd|].
  split.
  - rewrite nth_error_map, completeIn_nth, Hsec; simpl.
    rewrite Z.eqb_refl; reflexivity.
  - intros m Hm.
    rewrite !nth_error_map, completeIn_nth.
    destruct (nth_error (sections (current p)) m) as [other|] eqn:Hother;
      [|reflexivity].
    simpl; destruct (Z.eqb_spec (id other) (id sec)) as [E|_]; [|reflexivity].
    exfalso; apply Hm.
    exact (distinct_ids_distinct_places _ m n other sec Hnd Hother Hsec E).
Qed.

Lemma quiz_button_witness :
  let row := renderSection
               {| id := 3;
                  title := "OOP Concepts in Python";
                  description := "Understand object-oriented programming principles in Python.";
                  isCompleted := false |} in
  let p := fst (run asciiLower [ClickSection 1] initialPage) in
  nth_error (renderSections (current p)) 2 = Some row
  /\ forall m, m <> 2 ->
       nth_error (renderSections
                    (current (fst (dispatch asciiLower (button_onClick row) p)))) m
       = nth_error (renderSections (current p)) m.
Proof.
  cbv zeta.
  assert (H : nth_error
                (renderSections
                   (current (fst (run asciiLower [ClickSection 1] initialPage)))) 2
              = Some (renderSection
                        {| id := 3;
                           title := "OOP Concepts in Python";
                           description := "Understand object-oriented programming principles in Python.";
                           isCompleted := false |}))
    by reflexivity.
  split; [exact H|].
  exact (proj2 (proj2 (quiz_button_completes_its_row asciiLower [ClickSection 1]
                         2 _ H))).
Defined.

(** ** Further properties of the video and quiz relay *)

(** Watching a video to its end and closing the quiz brings the page back.
    From a page with no video selected and the quiz hidden, selecting a
    video opens the video dialog exactly when the identifier is not empty;
    completing it shows the quiz with the video dialog closed; closing the
    quiz gives the page of the start, and the three events produce no
    notification and no query. *)
Theorem video_then_quiz_round_trip :
  forall (toLowerCase : jsstring -> jsstring) (p : Page) (videoId : jsstring),
    selectedVideo (current p) = [] ->
    showQuiz (current p) = false ->
    let p1 := fst (run toLowerCase [SelectVideo videoId] p) in
    let p2 := fst (run toLowerCase [SelectVideo videoId; CompleteVideo] p) in
    videoIsOpen (current p1) = truthy videoId
    /\ selectedVideo (current p1) = videoId
    /\ showQuiz (current p2) = true
    /\ videoIsOpen (current p2) = false
    /\ run toLowerCase [SelectVideo videoId; CompleteVideo; CloseQuiz] p = (p, [])
    /\ run toLowerCase [SelectVideo videoId; CloseVideo] p = (p, []).
Proof.
  intros lower [s pend] v Hv Hq; destruct s; simpl in Hv, Hq; subst.
  cbv zeta; repeat split.
Qed.

Lemma video_round_trip_witness :
  selectedVideo (current initialPage) = []
  /\ showQuiz (current initialPage) = false
  /\ run asciiLower [SelectVideo (lit "abc123"); CompleteVideo; CloseQuiz]
         initialPage
     = (initialPage, []).
Proof.
  split; [reflexivity|]. split; [reflexivity|].
  exact (proj1 (proj2 (proj2 (proj2 (proj2
           (video_then_quiz_round_trip asciiLower initialPage (lit "abc123")
              eq_refl eq_refl)))))).
Defined.

(** ** What reaches the query service *)

(** In a session, only a click on a difficulty button sends a query: the
    search button, the tier buttons, the quiz buttons, the video and quiz
    events, the dialogs and the responses (failed ones included: there is no
    retry) send none; a difficulty click sends at most one. *)
Theorem only_difficulty_clicks_query :
  forall (toLowerCase : jsstring -> jsstring) (acts : list Action) (a : Action),
    let p := fst (run toLowerCase acts initialPage) in
    List.length (queries (snd (dispatch toLowerCase a p)))
    <= (if isDifficultyClick a then 1 else 0).
Proof.
  intros lower acts a; cbv zeta.
  assert (H0 : pendingAfterQuery initialPage) by constructor.
  destruct (run_keepsCompleted lower acts initialPage H0) as [Hp _].
  set (p := fst (run lower acts initialPage)) in *.
  destruct a; simpl; try lia.
  - unfold handleSearch.
    destruct (negb (truthy (trim (searchTopic (current p))))); simpl; lia.
  - unfold handleDifficultySelection.
    destruct (diverts lower (current p) level); simpl; lia.
  - destruct (nth_error (pending p) n) as [k|] eqn:E; simpl; [|lia].
    assert (Hk : k = afterQuery).
    { apply nth_error_In in E.
      unfold pendingAfterQuery in Hp; rewrite Forall_forall in Hp; auto. }
    subst k; rewrite afterQuery_outcome.
    destruct r as [data [e|] | e]; [| destruct (noLength data) |]; simpl; lia.
Qed.
